(** * A shallow embedding of [capstone_project.py]

    The program queries the GLEIF registry for an LEI record
    ([get_lei_information]), flattens it into one table row
    ([json_to_dataframe]), follows the relationship links of the record
    ([fetch_relationship_data]), collects the related LEIs
    ([extract_related_leis]) and renders everything in a Streamlit page
    (the script body, here [lookup]).

    Modelling choices.
    - Parsed JSON is the inductive [json]; a JSON object is a Python dict
      as [json.loads] builds it, an association list with distinct keys.
      JSON numbers are modelled as integers.
    - Python exceptions are the inductive [exn]; fallible code returns a
      [result].
    - The network is an oracle [http] from a request to a response,
      a variable of the sections that use it.
    - The Streamlit calls and the network requests are recorded, in
      order, in a log of [event]s. *)

From Stdlib Require Import Ascii String List ZArith Bool Lia.
Import ListNotations.
Local Open Scope string_scope.
Local Set Warnings "-register-all".

(** ** Python values *)

Inductive json : Type :=
| JNull
| JBool (b : bool)
| JNum (z : Z)
| JStr (s : string)
| JArr (l : list json)
| JObj (kvs : list (string * json)).

(** The Python exceptions the code can raise on the paths we model. *)
Inductive exn : Type :=
| KeyError (key : json)
| TypeError
| AttributeError
| IndexError.

Inductive result (A : Type) : Type :=
| Ok (a : A)
| Err (e : exn).
Arguments Ok {A} a.
Arguments Err {A} e.

Definition bind {A B} (m : result A) (k : A -> result B) : result B :=
  match m with
  | Ok a => k a
  | Err e => Err e
  end.

Notation "'let*' x := m 'in' k" := (bind m (fun x => k))
  (at level 200, x name, m at level 100, k at level 200).

Fixpoint mapM {A B} (f : A -> result B) (l : list A) : result (list B) :=
  match l with
  | [] => Ok []
  | x :: xs => let* y := f x in let* ys := mapM f xs in Ok (y :: ys)
  end.

(** First binding of a key in a dict. *)
Fixpoint assoc (k : string) (kvs : list (string * json)) : option json :=
  match kvs with
  | [] => None
  | (k', v) :: rest => if String.eqb k k' then Some v else assoc k rest
  end.

(** Python truthiness. *)
Definition truthy (v : json) : bool :=
  match v with
  | JNull => false
  | JBool b => b
  | JNum z => negb (Z.eqb z 0)
  | JStr s => negb (String.eqb s "")
  | JArr l => negb (List.length l =? 0)%nat
  | JObj kvs => negb (List.length kvs =? 0)%nat
  end.

(** [d[k]] with a string key. *)
Definition getitem (d : json) (k : string) : result json :=
  match d with
  | JObj kvs =>
      match assoc k kvs with
      | Some v => Ok v
      | None => Err (KeyError (JStr k))
      end
  | _ => Err TypeError
  end.

(** A continuation byte [10xxxxxx] of UTF-8. *)
Definition continuation (c : ascii) : bool :=
  Nat.leb 128 (nat_of_ascii c) && Nat.ltb (nat_of_ascii c) 192.

(** The characters (code points) of a Python [str], here held as its
    UTF-8 bytes: each character is a leading byte with the continuation
    bytes that follow it. *)
Fixpoint chars (s : string) : list string :=
  match s with
  | EmptyString => []
  | String c rest =>
      match chars rest with
      | (String d _ as first) :: others =>
          if continuation d then String c first :: others
          else String c EmptyString :: first :: others
      | l => String c EmptyString :: l
      end
  end.

(** [d[0]]. *)
Definition getitem0 (d : json) : result json :=
  match d with
  | JArr (x :: _) => Ok x
  | JArr [] => Err IndexError
  | JStr s =>
      match chars s with
      | c :: _ => Ok (JStr c)
      | [] => Err IndexError
      end
  | JObj _ => Err (KeyError (JNum 0))
  | _ => Err TypeError
  end.

(** [d.get(k, default)]: only dicts have a [get] method. *)
Definition dict_get (d : json) (k : string) (default : json) : result json :=
  match d with
  | JObj kvs =>
      match assoc k kvs with
      | Some v => Ok v
      | None => Ok default
      end
  | _ => Err AttributeError
  end.

Definition as_str (v : json) : result string :=
  match v with
  | JStr s => Ok s
  | _ => Err TypeError
  end.

(** [sep.join(v)]: [v] is iterated (a list, the characters of a string or
    the keys of a dict); every item must be a string. *)
Definition join (sep : string) (v : json) : result json :=
  match v with
  | JArr l => let* ss := mapM as_str l in Ok (JStr (String.concat sep ss))
  | JStr s => Ok (JStr (String.concat sep (chars s)))
  | JObj kvs => Ok (JStr (String.concat sep (map fst kvs)))
  | _ => Err TypeError
  end.

(** [needle in v]. *)
Definition contains (needle : string) (v : json) : result bool :=
  match v with
  | JObj kvs => Ok (if assoc needle kvs then true else false)
  | JArr l => Ok (existsb (fun x => match x with
                                   | JStr s => String.eqb s needle
                                   | _ => false
                                   end) l)
  | JStr s => Ok (if String.index 0 needle s then true else false)
  | _ => Err TypeError
  end.

(** Decimal rendering of an integer, as [str] of a Python [int]. *)
Fixpoint uint_to_string (d : Decimal.uint) : string :=
  match d with
  | Decimal.Nil => ""
  | Decimal.D0 d => "0" ++ uint_to_string d
  | Decimal.D1 d => "1" ++ uint_to_string d
  | Decimal.D2 d => "2" ++ uint_to_string d
  | Decimal.D3 d => "3" ++ uint_to_string d
  | Decimal.D4 d => "4" ++ uint_to_string d
  | Decimal.D5 d => "5" ++ uint_to_string d
  | Decimal.D6 d => "6" ++ uint_to_string d
  | Decimal.D7 d => "7" ++ uint_to_string d
  | Decimal.D8 d => "8" ++ uint_to_string d
  | Decimal.D9 d => "9" ++ uint_to_string d
  end.

Definition z_to_string (z : Z) : string :=
  match Z.to_int z with
  | Decimal.Pos d => uint_to_string d
  | Decimal.Neg d => "-" ++ uint_to_string d
  end.

(** [str(v)] for the hashable values that can reach an f-string. *)
Definition py_str (v : json) : string :=
  match v with
  | JNull => "None"
  | JBool true => "True"
  | JBool false => "False"
  | JNum z => z_to_string z
  | JStr s => s
  | JArr _ => "[...]"
  | JObj _ => "{...}"
  end.

(** ** The network *)

Record request : Type := mk_request {
  req_url : string;
  req_accept : option string
}.

(** What [requests.get] yields: a transport failure (a
    [RequestException] with its text), or a response with its status code,
    its raw text and the outcome of [response.json()] (a parsed value, or
    the text of the decode error). *)
Inductive response : Type :=
| Transport (msg : string)
| Response (status : Z) (text : string) (body : json + string).

(** ** [get_lei_information] *)

Section Fetcher.
Variable http : request -> response.

Definition gleif_url (lei : string) : string :=
  "https://api.gleif.org/api/v1/lei-records/" ++ lei.

Definition gleif_request (lei : string) : request :=
  mk_request (gleif_url lei) (Some "application/vnd.api+json").

Definition request_error (details : string) : json :=
  JObj [("error", JStr "An error occurred during the request.");
        ("details", JStr details)].

Definition get_lei_information (lei : string) : json :=
  match http (gleif_request lei) with
  | Transport msg => request_error msg
  | Response status text body =>
      if Z.eqb status 200 then
        match body with
        | inl data => data
        | inr msg => request_error msg
        end
      else
        JObj [("error", JStr ("Error retrieving data (status code "
                                ++ z_to_string status ++ ")."));
              ("details", JStr text)]
  end.

End Fetcher.

(** ** [json_to_dataframe] *)

(** A flat row: the dict [flat_data], keys in the order of the source. *)
Definition row := list (string * json).

(** One-row DataFrame after [set_index("Legal Name")]: the index label
    and the remaining columns. *)
Definition frame := (json * row)%type.

(** [d[k1][k2]]. *)
Definition getitem2 (d : json) (k1 k2 : string) : result json :=
  let* x := getitem d k1 in getitem x k2.

(** [entity["transliteratedOtherNames"][0][field] if
    entity["transliteratedOtherNames"] else None]. *)
Definition first_transliteration (entity : json) (field : string)
  : result json :=
  let* names := getitem entity "transliteratedOtherNames" in
  if truthy names then
    let* names' := getitem entity "transliteratedOtherNames" in
    let* first := getitem0 names' in
    getitem first field
  else Ok JNull.

(** [", ".join(entity[address]["addressLines"])]. *)
Definition address_lines (entity : json) (address : string) : result json :=
  let* lines := getitem2 entity address "addressLines" in
  join ", " lines.

(** [", ".join(attributes[codes]) if attributes[codes] else None]. *)
Definition code_list (attributes : json) (codes : string) : result json :=
  let* c := getitem attributes codes in
  if truthy c then
    let* c' := getitem attributes codes in
    join ", " c'
  else Ok JNull.

Definition flat_data (data : json) : result row :=
  let* attributes := getitem2 data "data" "attributes" in
  let* entity := getitem attributes "entity" in
  let* registration := getitem attributes "registration" in
  let* lei := getitem attributes "lei" in
  let* legal_name := getitem2 entity "legalName" "name" in
  let* legal_name_language := getitem2 entity "legalName" "language" in
  let* tr_name := first_transliteration entity "name" in
  let* tr_language := first_transliteration entity "language" in
  let* tr_type := first_transliteration entity "type" in
  let* legal_address := address_lines entity "legalAddress" in
  let* la_language := getitem2 entity "legalAddress" "language" in
  let* la_city := getitem2 entity "legalAddress" "city" in
  let* la_region := getitem2 entity "legalAddress" "region" in
  let* la_country := getitem2 entity "legalAddress" "country" in
  let* la_postal := getitem2 entity "legalAddress" "postalCode" in
  let* hq_address := address_lines entity "headquartersAddress" in
  let* hq_language := getitem2 entity "headquartersAddress" "language" in
  let* hq_city := getitem2 entity "headquartersAddress" "city" in
  let* hq_region := getitem2 entity "headquartersAddress" "region" in
  let* hq_country := getitem2 entity "headquartersAddress" "country" in
  let* hq_postal := getitem2 entity "headquartersAddress" "postalCode" in
  let* jurisdiction := getitem entity "jurisdiction" in
  let* category := getitem entity "category" in
  let* legal_form := getitem2 entity "legalForm" "id" in
  let* registered_at := getitem2 entity "registeredAt" "id" in
  let* registered_as := getitem entity "registeredAs" in
  let* entity_status := getitem entity "status" in
  let* creation_date := getitem entity "creationDate" in
  let* expiration_date := getitem2 entity "expiration" "date" in
  let* expiration_reason := getitem2 entity "expiration" "reason" in
  let* assoc_lei := getitem2 entity "associatedEntity" "lei" in
  let* assoc_name := getitem2 entity "associatedEntity" "name" in
  let* bic := code_list attributes "bic" in
  let* mic := getitem attributes "mic" in
  let* ocid := getitem attributes "ocid" in
  let* spglobal := code_list attributes "spglobal" in
  let* conformity := getitem attributes "conformityFlag" in
  let* initial_reg := getitem registration "initialRegistrationDate" in
  let* last_update := getitem registration "lastUpdateDate" in
  let* next_renewal := getitem registration "nextRenewalDate" in
  let* reg_status := getitem registration "status" in
  let* managing_lou := getitem registration "managingLou" in
  let* corroboration := getitem registration "corroborationLevel" in
  let* validated_at := getitem2 registration "validatedAt" "id" in
  let* validated_as := getitem registration "validatedAs" in
  Ok [("LEI", lei);
      ("Legal Name", legal_name);
      ("Legal Name Language", legal_name_language);
      ("Transliterated Legal Name", tr_name);
      ("Transliterated Legal Name Language", tr_language);
      ("Transliterated Legal Name Type", tr_type);
      ("Legal Address", legal_address);
      ("Legal Address Language", la_language);
      ("Legal Address City", la_city);
      ("Legal Address Region", la_region);
      ("Legal Address Country", la_country);
      ("Legal Address Postal Code", la_postal);
      ("Headquarters Address", hq_address);
      ("Headquarters Address Language", hq_language);
      ("Headquarters Address City", hq_city);
      ("Headquarters Address Region", hq_region);
      ("Headquarters Address Country", hq_country);
      ("Headquarters Address Postal Code", hq_postal);
      ("Jurisdiction", jurisdiction);
      ("Category", category);
      ("Legal Form ID", legal_form);
      ("Registered At ID", registered_at);
      ("Registered As", registered_as);
      ("Entity Status", entity_status);
      ("Creation Date", creation_date);
      ("Expiration Date", expiration_date);
      ("Expiration Reason", expiration_reason);
      ("Associated Entity LEI", assoc_lei);
      ("Associated Entity Name", assoc_name);
      ("BIC Codes", bic);
      ("MIC", mic);
      ("OCID", ocid);
      ("SP Global IDs", spglobal);
      ("Conformity Flag", conformity);
      ("Initial Registration Date", initial_reg);
      ("Last Update Date", last_update);
      ("Next Renewal Date", next_renewal);
      ("Registration Status", reg_status);
      ("Managing LOU", managing_lou);
      ("Corroboration Level", corroboration);
      ("Validated At ID", validated_at);
      ("Validated As", validated_as)].

(** [df.set_index(key)] on a one-row frame. *)
Definition set_index (key : string) (r : row) : result frame :=
  match assoc key r with
  | Some v => Ok (v, filter (fun kv => negb (String.eqb (fst kv) key)) r)
  | None => Err (KeyError (JStr key))
  end.

Definition json_to_dataframe (data : json) : result frame :=
  let* flat := flat_data data in
  set_index "Legal Name" flat.

(** A column of a flattened row. *)
Definition column (fr : frame) (name : string) : option json :=
  assoc name (snd fr).

(** ** [fetch_relationship_data] *)

(** Why a relationship request failed: the text of the caught
    [RequestException] is [str(e)]; we keep its cause. *)
Inductive rel_error : Type :=
| RelTransport (msg : string)      (** the request did not complete *)
| RelHTTP (status : Z)             (** [raise_for_status()] raised *)
| RelDecode (msg : string)         (** [response.json()] raised *)
| RelInvalidURL (link : json).     (** the link is not a URL string *)

(** One dict of [results]: with a ["Data"] key or with an ["Error"] key. *)
Inductive rel_result : Type :=
| RelData (name : string) (link : json) (data : json)
| RelError (name : string) (link : json) (err : rel_error).

(** ** The log of the page and the effect monad *)

(** The observable steps of a lookup: a network request, and the
    Streamlit calls [st.error], [st.write], [st.subheader],
    [st.dataframe] (its frames) and [st.info]. Headings and notices are
    kept without their emoji. *)
Inductive event : Type :=
| EvRequest (r : request)
| EvError (v : json)
| EvWrite (v : json)
| EvSubheader (s : string)
| EvTable (t : list frame)
| EvInfo (s : string).

(** State (the log) and exceptions. *)
Definition M (A : Type) : Type := list event -> list event * result A.

Definition ret {A} (a : A) : M A := fun log => (log, Ok a).

Definition mbind {A B} (m : M A) (k : A -> M B) : M B :=
  fun log =>
    match m log with
    | (log', Ok a) => k a log'
    | (log', Err e) => (log', Err e)
    end.

Notation "x <- m ;; k" := (mbind m (fun x => k))
  (at level 61, m at next level, right associativity).
Notation "m ;;; k" := (mbind m (fun _ => k))
  (at level 61, right associativity).

Definition emit (e : event) : M unit := fun log => (app log [e], Ok tt).

Definition lift {A} (r : result A) : M A := fun log => (log, r).

Section Relationships.
Variable http : request -> response.

(** The [try] block of one relationship: [requests.get(related_link)],
    [raise_for_status()] (which raises on 4xx and 5xx) and
    [response.json()]. [requests] renders a non-string link with [str]
    and rejects it with a [RequestException] (it has no scheme) before
    any network access. *)
Definition fetch_link (name : string) (link : json) : M rel_result :=
  match link with
  | JStr url =>
      emit (EvRequest (mk_request url None)) ;;;
      ret (match http (mk_request url None) with
           | Transport msg => RelError name link (RelTransport msg)
           | Response status _ body =>
               if (400 <=? status)%Z && (status <? 600)%Z then
                 RelError name link (RelHTTP status)
               else
                 match body with
                 | inl data => RelData name link data
                 | inr msg => RelError name link (RelDecode msg)
                 end
           end)
  | _ => ret (RelError name link (RelInvalidURL link))
  end.

(** One iteration of the loop over [relationships.items()]; [None] for a
    relationship without a truthy link (nothing is appended). *)
Definition fetch_relationship (rel : string * json) : M (option rel_result) :=
  links <- lift (dict_get (snd rel) "links" (JObj [])) ;;
  related_link <- lift (dict_get links "related" JNull) ;;
  if truthy related_link then
    r <- fetch_link (fst rel) related_link ;; ret (Some r)
  else ret None.

Fixpoint fetch_relationships (rels : list (string * json))
  : M (list rel_result) :=
  match rels with
  | [] => ret []
  | rel :: rest =>
      r <- fetch_relationship rel ;;
      rs <- fetch_relationships rest ;;
      ret (match r with Some x => x :: rs | None => rs end)
  end.

(** [relationships.items()]: only dicts have [items]. *)
Definition items (v : json) : result (list (string * json)) :=
  match v with
  | JObj kvs => Ok kvs
  | _ => Err AttributeError
  end.

(** The list [results]; [pd.DataFrame(results)] keeps its rows in order. *)
Definition fetch_relationship_data (base_data : json) : M (list rel_result) :=
  d <- lift (getitem base_data "data") ;;
  relationships <- lift (dict_get d "relationships" (JObj [])) ;;
  rels <- lift (items relationships) ;;
  fetch_relationships rels.

End Relationships.

(** ** The ["Data"] column *)

(** A cell of the ["Data"] column of [pd.DataFrame(results)]: the fetched
    payload, or [NaN] (a [float]) in the rows that have no ["Data"] key. *)
Inductive cell : Type :=
| CJson (v : json)
| CNaN.

Definition data_cell (r : rel_result) : cell :=
  match r with
  | RelData _ _ data => CJson data
  | RelError _ _ _ => CNaN
  end.

Definition has_data (r : rel_result) : bool :=
  match r with RelData _ _ _ => true | RelError _ _ _ => false end.

(** [relationship_df["Data"]]: the column exists when some row has the key;
    otherwise [KeyError('Data')]. *)
Definition data_column (rs : list rel_result) : result (list cell) :=
  if existsb has_data rs then Ok (map data_cell rs)
  else Err (KeyError (JStr "Data")).

(** [x.get(k, default)] on a cell: [NaN] is a [float], without [get]. *)
Definition cell_get (c : cell) (k : string) (default : json) : result json :=
  match c with
  | CJson v => dict_get v k default
  | CNaN => Err AttributeError
  end.

(** ** [extract_related_leis] *)

(** [lei != input_lei] against a string. *)
Definition differs_from (lei : json) (input_lei : string) : bool :=
  match lei with
  | JStr s => negb (String.eqb s input_lei)
  | _ => true
  end.

(** One entry of a ["data"] field:
    [lei = entry.get("attributes", {}).get("lei")], appended when
    [lei and lei != input_lei]. *)
Definition entry_lei (input_lei : string) (entry : json) : result (list json) :=
  let* attributes := dict_get entry "attributes" (JObj []) in
  let* lei := dict_get attributes "lei" JNull in
  Ok (if truthy lei && differs_from lei input_lei then [lei] else []).

(** One relationship payload: its ["data"] field is a list of entries, a
    single entry, or anything else (skipped). *)
Definition relationship_leis (input_lei : string) (relationship : cell)
  : result (list json) :=
  let* data_field := cell_get relationship "data" JNull in
  match data_field with
  | JArr entries =>
      let* ls := mapM (entry_lei input_lei) entries in Ok (concat ls)
  | JObj _ => entry_lei input_lei data_field
  | _ => Ok []
  end.

(** The list [related_leis] built by the loop. *)
Definition collect_related_leis (relationship_data : list cell)
  (input_lei : string) : result (list json) :=
  let* ls := mapM (relationship_leis input_lei) relationship_data in
  Ok (concat ls).

(** Python values usable as set members. *)
Definition hashable (v : json) : bool :=
  match v with
  | JArr _ | JObj _ => false
  | _ => true
  end.

(** Python [==] between hashable values ([True == 1], [False == 0]). *)
Definition py_eq (a b : json) : bool :=
  match a, b with
  | JNull, JNull => true
  | JBool x, JBool y => Bool.eqb x y
  | JNum x, JNum y => Z.eqb x y
  | JBool x, JNum y | JNum y, JBool x => Z.eqb y (if x then 1 else 0)%Z
  | JStr x, JStr y => String.eqb x y
  | _, _ => false
  end.

(** [set(xs)] built by inserting the items in turn (an unhashable item
    raises [TypeError]); a member equal to an earlier one is not added.
    [list(...)] of the set is read here in insertion order: CPython
    orders it by hash, and nothing depends on that order. *)
Fixpoint set_insert_all (acc xs : list json) : result (list json) :=
  match xs with
  | [] => Ok acc
  | x :: rest =>
      if hashable x then
        set_insert_all (if existsb (py_eq x) acc then acc else app acc [x]) rest
      else Err TypeError
  end.

Definition list_of_set (xs : list json) : result (list json) :=
  set_insert_all [] xs.

Definition extract_related_leis (relationship_data : list cell)
  (input_lei : string) : result (list json) :=
  let* related_leis := collect_related_leis relationship_data input_lei in
  list_of_set related_leis.

(** ** The page: one press of the button *)

Section Lookup.
Variable http : request -> response.

Definition fetch_lei (lei : string) : M json :=
  emit (EvRequest (gleif_request lei)) ;;; ret (get_lei_information http lei).

(** [st.error(f"... {data['error']}")] and
    [st.write(f"... {data['details']}")]. *)
Definition show_error (data : json) : M unit :=
  e <- lift (getitem data "error") ;;
  emit (EvError e) ;;;
  d <- lift (getitem data "details") ;;
  emit (EvWrite d).

(** The loop over [related_leis], growing [relationship_df_display]. *)
Fixpoint related_frames (leis : list json) (acc : list frame)
  : M (list frame) :=
  match leis with
  | [] => ret acc
  | lei :: rest =>
      data <- fetch_lei (py_str lei) ;;
      failed <- lift (contains "error" data) ;;
      if failed then show_error data ;;; related_frames rest acc
      else
        fr <- lift (json_to_dataframe data) ;;
        related_frames rest (app acc [fr])
  end.

(** [st.dataframe(df.T.style.format(na_rep="N/A"))]. The frames' index
    labels (the legal names) are the columns of the transpose, and
    [Styler.format] makes them the keys of a dict: a label that is a list
    or a dict raises [TypeError] before anything is shown. *)
Definition show_table (t : list frame) : M unit :=
  if forallb (fun fr => hashable (fst fr)) t then emit (EvTable t)
  else lift (Err TypeError).

(** The [else] branch, after the ["Company Information"] heading. *)
Definition show_company (input_lei : string) (data : json) : M unit :=
  company_df <- lift (json_to_dataframe data) ;;
  show_table [company_df] ;;;
  emit (EvSubheader "Company Relationships") ;;;
  relationship_df <- fetch_relationship_data http data ;;
  match relationship_df with
  | [] => emit (EvInfo "No relationships found.")
  | _ =>
      relationship_data <- lift (data_column relationship_df) ;;
      related_leis <- lift (extract_related_leis relationship_data input_lei) ;;
      display <- related_frames related_leis [] ;;
      match display with
      | [] => emit (EvInfo "No relationships found.")
      | _ => show_table display
      end
  end.

Definition lookup (input_lei : string) : M unit :=
  data <- fetch_lei input_lei ;;
  failed <- lift (contains "error" data) ;;
  if failed then show_error data
  else
    emit (EvSubheader "Company Information") ;;;
    show_company input_lei data.

(** A lookup from an empty page: its log and its outcome. *)
Definition run_lookup (input_lei : string) : list event * result unit :=
  lookup input_lei [].

End Lookup.

(** ** Records of the registry's fixed schema

    The records the spec calls valid: every path [json_to_dataframe]
    reads is present; address lines and code lists are lists of strings
    (a code list may also be [null]); every other leaf is any JSON
    value. [encode] renders such a record as the JSON document the
    registry returns. *)

Record address : Type := mk_address {
  addr_lines : list string;
  addr_language : json;
  addr_city : json;
  addr_region : json;
  addr_country : json;
  addr_postal_code : json
}.

Record lei_record : Type := mk_lei_record {
  rec_lei : json;
  rec_legal_name : json;
  rec_legal_name_language : json;
  rec_transliterations : list (json * json * json);
  rec_legal_address : address;
  rec_headquarters_address : address;
  rec_jurisdiction : json;
  rec_category : json;
  rec_legal_form_id : json;
  rec_registered_at_id : json;
  rec_registered_as : json;
  rec_status : json;
  rec_creation_date : json;
  rec_expiration_date : json;
  rec_expiration_reason : json;
  rec_associated_lei : json;
  rec_associated_name : json;
  rec_bic : option (list string);
  rec_mic : json;
  rec_ocid : json;
  rec_spglobal : option (list string);
  rec_conformity_flag : json;
  rec_initial_registration_date : json;
  rec_last_update_date : json;
  rec_next_renewal_date : json;
  rec_registration_status : json;
  rec_managing_lou : json;
  rec_corroboration_level : json;
  rec_validated_at_id : json;
  rec_validated_as : json
}.

Definition encode_strings (l : list string) : json := JArr (map JStr l).

Definition encode_codes (c : option (list string)) : json :=
  match c with
  | Some l => encode_strings l
  | None => JNull
  end.

Definition encode_transliteration (t : json * json * json) : json :=
  let '(name, language, type_) := t in
  JObj [("name", name); ("language", language); ("type", type_)].

Definition encode_address (a : address) : json :=
  JObj [("language", addr_language a);
        ("addressLines", encode_strings (addr_lines a));
        ("city", addr_city a);
        ("region", addr_region a);
        ("country", addr_country a);
        ("postalCode", addr_postal_code a)].

Definition encode_entity (r : lei_record) : json :=
  JObj [("legalName", JObj [("name", rec_legal_name r);
                            ("language", rec_legal_name_language r)]);
        ("transliteratedOtherNames",
           JArr (map encode_transliteration (rec_transliterations r)));
        ("legalAddress", encode_address (rec_legal_address r));
        ("headquartersAddress", encode_address (rec_headquarters_address r));
        ("registeredAt", JObj [("id", rec_registered_at_id r)]);
        ("registeredAs", rec_registered_as r);
        ("jurisdiction", rec_jurisdiction r);
        ("category", rec_category r);
        ("legalForm", JObj [("id", rec_legal_form_id r)]);
        ("associatedEntity", JObj [("lei", rec_associated_lei r);
                                   ("name", rec_associated_name r)]);
        ("status", rec_status r);
        ("expiration", JObj [("date", rec_expiration_date r);
                             ("reason", rec_expiration_reason r)]);
        ("creationDate", rec_creation_date r)].

Definition encode_registration (r : lei_record) : json :=
  JObj [("initialRegistrationDate", rec_initial_registration_date r);
        ("lastUpdateDate", rec_last_update_date r);
        ("status", rec_registration_status r);
        ("nextRenewalDate", rec_next_renewal_date r);
        ("managingLou", rec_managing_lou r);
        ("corroborationLevel", rec_corroboration_level r);
        ("validatedAt", JObj [("id", rec_validated_at_id r)]);
        ("validatedAs", rec_validated_as r)].

Definition encode_attributes (r : lei_record) : json :=
  JObj [("lei", rec_lei r);
        ("entity", encode_entity r);
        ("registration", encode_registration r);
        ("bic", encode_codes (rec_bic r));
        ("mic", rec_mic r);
        ("ocid", rec_ocid r);
        ("spglobal", encode_codes (rec_spglobal r));
        ("conformityFlag", rec_conformity_flag r)].

Definition encode (r : lei_record) : json :=
  JObj [("data", JObj [("type", JStr "lei-records");
                       ("id", rec_lei r);
                       ("attributes", encode_attributes r)])].

(** [p] with its last key removed from the object it leads to. *)
Fixpoint remove_path (p : list string) (v : json) : json :=
  match p, v with
  | [k], JObj kvs => JObj (filter (fun kv => negb (String.eqb (fst kv) k)) kvs)
  | k :: rest, JObj kvs =>
      JObj (map (fun kv => if String.eqb (fst kv) k
                           then (fst kv, remove_path rest (snd kv))
                           else kv) kvs)
  | _, _ => v
  end.

(** [v] with [f] applied to the value at path [p]. *)
Fixpoint update_path (p : list string) (f : json -> json) (v : json) : json :=
  match p, v with
  | [], _ => f v
  | k :: rest, JObj kvs =>
      JObj (map (fun kv => if String.eqb (fst kv) k
                           then (fst kv, update_path rest f (snd kv))
                           else kv) kvs)
  | _, _ => v
  end.

Definition drop_key (k : string) (v : json) : json :=
  match v with
  | JObj kvs => JObj (filter (fun kv => negb (String.eqb (fst kv) k)) kvs)
  | _ => v
  end.

Definition on_first (f : json -> json) (v : json) : json :=
  match v with
  | JArr (x :: xs) => JArr (f x :: xs)
  | _ => v
  end.

(** The key [k] removed from [transliteratedOtherNames[0]]. *)
Definition remove_transliteration_key (k : string) (v : json) : json :=
  update_path ["data"; "attributes"; "entity"; "transliteratedOtherNames"]
    (on_first (drop_key k)) v.

(** A sample record, as the registry returns for [529900W18LQJJN6SJ336]
    (shortened). *)
Definition sample_address : address :=
  mk_address ["Taunusanlage 12"] (JStr "de") (JStr "Frankfurt am Main")
             (JStr "DE-HE") (JStr "DE") (JStr "60325").

Definition sample_record : lei_record :=
  mk_lei_record (JStr "529900W18LQJJN6SJ336") (JStr "Sample AG") (JStr "de")
    [] sample_address sample_address (JStr "DE") (JStr "GENERAL")
    (JStr "8888") (JStr "RA000242") (JStr "HRB 1") (JStr "ACTIVE")
    (JStr "2014-01-01T00:00:00Z") JNull JNull JNull JNull
    (Some []) JNull JNull None (JStr "CONFORMING")
    (JStr "2014-01-01") (JStr "2024-01-01") (JStr "2025-01-01")
    (JStr "ISSUED") (JStr "5299000J2N45DDNE4Y28")
    (JStr "FULLY_CORROBORATED") (JStr "RA000242") (JStr "HRB 1").


Example sample_flattens :
  match json_to_dataframe (encode sample_record) with
  | Ok (idx, r) =>
      idx = JStr "Sample AG" /\ assoc "BIC Codes" r = Some JNull
      /\ assoc "Legal Address" r = Some (JStr "Taunusanlage 12")
      /\ List.length r = 41%nat
  | Err _ => False
  end.
Proof. vm_compute. repeat split. Qed.

(** Every path [json_to_dataframe] reads with [d[k]] (the subscripts
    through [transliteratedOtherNames[0]] aside), in the order of the
    source. *)
Definition required_paths : list (list string) :=
  let a := ["data"; "attributes"] in
  let e := app a ["entity"] in
  let g := app a ["registration"] in
  let addr k := [app e [k]; app e [k; "addressLines"];
                 app e [k; "language"]; app e [k; "city"];
                 app e [k; "region"]; app e [k; "country"];
                 app e [k; "postalCode"]] in
  [["data"]; a; e; g; app a ["lei"];
   app e ["legalName"]; app e ["legalName"; "name"];
   app e ["legalName"; "language"]; app e ["transliteratedOtherNames"]]
  ++ addr "legalAddress" ++ addr "headquartersAddress" ++
  [app e ["jurisdiction"]; app e ["category"];
   app e ["legalForm"]; app e ["legalForm"; "id"];
   app e ["registeredAt"]; app e ["registeredAt"; "id"];
   app e ["registeredAs"]; app e ["status"]; app e ["creationDate"];
   app e ["expiration"]; app e ["expiration"; "date"];
   app e ["expiration"; "reason"];
   app e ["associatedEntity"]; app e ["associatedEntity"; "lei"];
   app e ["associatedEntity"; "name"];
   app a ["bic"]; app a ["mic"]; app a ["ocid"]; app a ["spglobal"];
   app a ["conformityFlag"];
   app g ["initialRegistrationDate"]; app g ["lastUpdateDate"];
   app g ["nextRenewalDate"]; app g ["status"]; app g ["managingLou"];
   app g ["corroborationLevel"]; app g ["validatedAt"];
   app g ["validatedAt"; "id"]; app g ["validatedAs"]].

(** * Proofs *)

(** ** Evaluating [json_to_dataframe] on a symbolic record *)

Lemma mapM_as_str_map (l : list string) : mapM as_str (map JStr l) = Ok l.
Proof. induction l as [|s l IH]; simpl; [reflexivity | rewrite IH; reflexivity]. Qed.

Ltac crunch := repeat (simpl; rewrite ?mapM_as_str_map).

Ltac unfold_flatten :=
  unfold json_to_dataframe, flat_data, first_transliteration, address_lines,
    code_list, getitem2, join, set_index, encode_attributes.

Ltac split_record r trs bic sp :=
  destruct r as [? ? ? trs [? ? ? ? ? ?] [? ? ? ? ? ?] ? ? ? ? ? ? ? ? ? ? ?
                 bic ? ? sp ? ? ? ? ? ? ? ? ?].

(** Symbolic evaluation, splitting the transliterations and the code
    lists (whose truthiness the code tests) only when it gets stuck. *)
Ltac settle trs bic sp :=
  unfold_flatten; crunch; try reflexivity;
  destruct trs as [|[[? ?] ?] ?]; crunch; try reflexivity;
  destruct bic as [[|? ?]|]; crunch; try reflexivity;
  destruct sp as [[|? ?]|]; crunch; reflexivity.

(** The columns of a record's row that depend on lists. *)
Lemma flatten_encoded (r : lei_record) :
  exists fr, json_to_dataframe (encode r) = Ok fr /\
    fst fr = rec_legal_name r /\
    column fr "LEI" = Some (rec_lei r) /\
    column fr "Transliterated Legal Name" =
      Some (match rec_transliterations r with
            | [] => JNull | (n, _, _) :: _ => n end) /\
    column fr "Transliterated Legal Name Language" =
      Some (match rec_transliterations r with
            | [] => JNull | (_, l, _) :: _ => l end) /\
    column fr "Transliterated Legal Name Type" =
      Some (match rec_transliterations r with
            | [] => JNull | (_, _, t) :: _ => t end) /\
    column fr "Legal Address" =
      Some (JStr (String.concat ", " (addr_lines (rec_legal_address r)))) /\
    column fr "Headquarters Address" =
      Some (JStr (String.concat ", "
                    (addr_lines (rec_headquarters_address r)))) /\
    column fr "BIC Codes" =
      Some (match rec_bic r with
            | Some (c :: cs) => JStr (String.concat ", " (c :: cs))
            | _ => JNull end) /\
    column fr "SP Global IDs" =
      Some (match rec_spglobal r with
            | Some (c :: cs) => JStr (String.concat ", " (c :: cs))
            | _ => JNull end).
Proof.
  split_record r trs bic sp.
  destruct trs as [|[[? ?] ?] ?]; destruct bic as [[|? ?]|];
    destruct sp as [[|? ?]|];
    unfold_flatten; crunch; eexists; (split; [reflexivity |]);
    simpl; repeat split.
Qed.

(** The error of [json_to_dataframe] on a record missing the last key of
    a required path. *)
Lemma missing_key_error (r : lei_record) (p : list string) :
  In p required_paths ->
  json_to_dataframe (remove_path p (encode r)) = Err (KeyError (JStr (last p ""))).
Proof.
  intros Hp.
  split_record r trs bic sp.
  simpl in Hp.
  repeat (destruct Hp as [<- | Hp]; [settle trs bic sp |]).
  contradiction.
Qed.

(** ** The flattener *)

(** C4 (counterexample): the spec's absent code list does not give a
    null ["BIC Codes"]: without the [bic] key, [json_to_dataframe] raises
    [KeyError('bic')] and builds no row. *)
Lemma flatten_absent_bic_not_null :
  ~ exists fr,
      json_to_dataframe (remove_path ["data"; "attributes"; "bic"]
                           (encode sample_record)) = Ok fr
      /\ column fr "BIC Codes" = Some JNull.
Proof.
  intros [fr [H _]]. vm_compute in H. discriminate H.
Qed.

(** C4 (amended): for every record, an empty or null [attributes.bic]
    gives a null ["BIC Codes"], and likewise [spglobal] and
    ["SP Global IDs"]; an empty [legalAddress.addressLines] gives the
    empty string for ["Legal Address"]; a record without the [bic] or the
    [spglobal] key raises [KeyError] naming that key. *)
Theorem flatten_empty_list_policies (r : lei_record) :
  (exists fr, json_to_dataframe (encode r) = Ok fr /\
    ((rec_bic r = None \/ rec_bic r = Some []) ->
       column fr "BIC Codes" = Some JNull) /\
    ((rec_spglobal r = None \/ rec_spglobal r = Some []) ->
       column fr "SP Global IDs" = Some JNull) /\
    (addr_lines (rec_legal_address r) = [] ->
       column fr "Legal Address" = Some (JStr ""))) /\
  json_to_dataframe (remove_path ["data"; "attributes"; "bic"] (encode r))
    = Err (KeyError (JStr "bic")) /\
  json_to_dataframe (remove_path ["data"; "attributes"; "spglobal"] (encode r))
    = Err (KeyError (JStr "spglobal")).
Proof.
  split; [| split].
  - destruct (flatten_encoded r)
      as [fr (Hfr & _ & _ & _ & _ & _ & Hla & _ & Hbic & Hsp)].
    exists fr. split; [exact Hfr |]. split; [| split].
    + intros [Hb | Hb]; rewrite Hbic, Hb; reflexivity.
    + intros [Hs | Hs]; rewrite Hsp, Hs; reflexivity.
    + intros Hl. rewrite Hla, Hl. reflexivity.
  - apply (missing_key_error r ["data"; "attributes"; "bic"]).
    simpl; tauto.
  - apply (missing_key_error r ["data"; "attributes"; "spglobal"]).
    simpl; tauto.
Qed.

(** C6: for every record, flattening succeeds; an empty
    [transliteratedOtherNames] gives null transliterated name, language
    and type; otherwise the first entry's name, language and type are
    projected. *)
Theorem flatten_first_transliteration (r : lei_record) :
  exists fr, json_to_dataframe (encode r) = Ok fr /\
    (rec_transliterations r = [] ->
       column fr "Transliterated Legal Name" = Some JNull /\
       column fr "Transliterated Legal Name Language" = Some JNull /\
       column fr "Transliterated Legal Name Type" = Some JNull) /\
    (forall name language type_ rest,
       rec_transliterations r = (name, language, type_) :: rest ->
       column fr "Transliterated Legal Name" = Some name /\
       column fr "Transliterated Legal Name Language" = Some language /\
       column fr "Transliterated Legal Name Type" = Some type_).
Proof.
  destruct (flatten_encoded r)
    as [fr (Hfr & _ & _ & Hn & Hl & Ht & _)].
  exists fr. split; [exact Hfr |]. split.
  - intros Hnil. rewrite Hn, Hl, Ht, Hnil. repeat split.
  - intros name language type_ rest Hcons.
    rewrite Hn, Hl, Ht, Hcons. repeat split.
Qed.

(** C8 (counterexample): the error does not name the missing path: a
    record missing [legalAddress.city] and one missing
    [headquartersAddress.city] fail with the same error. *)
Lemma flatten_error_names_key_only :
  exists p1 p2,
    In p1 required_paths /\ In p2 required_paths /\ p1 <> p2 /\
    json_to_dataframe (remove_path p1 (encode sample_record)) =
    json_to_dataframe (remove_path p2 (encode sample_record)).
Proof.
  exists ["data"; "attributes"; "entity"; "legalAddress"; "city"],
         ["data"; "attributes"; "entity"; "headquartersAddress"; "city"].
  split; [simpl; tauto |]. split; [simpl; tauto |].
  split; [discriminate |]. vm_compute. reflexivity.
Qed.

(** C8 (amended): for every record and every key the code reads with
    [d[k]], removing that key makes [json_to_dataframe] fail with
    [KeyError] carrying that key alone (not its whole path); no default
    is substituted. This covers every path of [required_paths] and the
    keys ["name"], ["language"] and ["type"] read from
    [transliteratedOtherNames[0]] (read only when that list is not
    empty: an empty list is never subscripted). *)
Theorem flatten_missing_key_raises (r : lei_record) :
  Forall (fun p => json_to_dataframe (remove_path p (encode r))
                   = Err (KeyError (JStr (last p ""))))
         required_paths /\
  Forall (fun k => json_to_dataframe (remove_transliteration_key k (encode r))
                   = match rec_transliterations r with
                     | [] => json_to_dataframe (encode r)
                     | _ :: _ => Err (KeyError (JStr k))
                     end)
         ["name"; "language"; "type"].
Proof.
  split.
  - apply Forall_forall. intros p Hp. apply missing_key_error. exact Hp.
  - apply Forall_forall. intros k Hk. simpl in Hk.
    split_record r trs bic sp.
    unfold remove_transliteration_key, encode.
    repeat (destruct Hk as [<- | Hk]; [settle trs bic sp |]).
    contradiction.
Qed.

(** C9: [json_to_dataframe] is a function of the record alone: on every
    record of the schema it yields one row, and any run yields that row. *)
Theorem flatten_deterministic (r : lei_record) :
  exists fr, json_to_dataframe (encode r) = Ok fr /\
    forall fr', json_to_dataframe (encode r) = Ok fr' -> fr' = fr.
Proof.
  destruct (flatten_encoded r) as [fr [Hfr _]].
  exists fr. split; [exact Hfr |].
  intros fr' H. rewrite Hfr in H. injection H. auto.
Qed.

(** ** The fetcher *)

(** A registry answering every request with status 201 and an empty
    JSON object. *)
Definition answer_201 (_ : request) : response :=
  Response 201 "{}" (inl (JObj [])).

(** C5 (counterexample): a success status other than 200 does not return
    the parsed body. *)
Lemma fetch_201_not_body :
  get_lei_information answer_201 "529900W18LQJJN6SJ336" <> JObj [].
Proof. vm_compute. discriminate. Qed.

(** C5 (amended): with status exactly 200 and a JSON body, the parsed
    body is returned; with any other status, an error dict whose
    ["error"] message embeds the status code and whose ["details"] is the
    raw response text, verbatim. *)
Theorem fetch_status_200_only (http : request -> response) (lei : string)
  (status : Z) (text : string) (body : json + string)
  (H : http (gleif_request lei) = Response status text body) :
  (status = 200%Z -> forall data, body = inl data ->
     get_lei_information http lei = data) /\
  (status <> 200%Z ->
     getitem (get_lei_information http lei) "error" =
       Ok (JStr ("Error retrieving data (status code "
                 ++ z_to_string status ++ ")."))
     /\ getitem (get_lei_information http lei) "details" = Ok (JStr text)).
Proof.
  unfold get_lei_information. rewrite H. split.
  - intros -> data ->. reflexivity.
  - intros Hs. apply Z.eqb_neq in Hs. rewrite Hs. split; reflexivity.
Qed.

Lemma fetch_status_200_only_witness :
  answer_201 (gleif_request "X") = Response 201 "{}" (inl (JObj [])) /\
  getitem (get_lei_information answer_201 "X") "details" = Ok (JStr "{}").
Proof.
  split; [reflexivity |].
  apply (fetch_status_200_only answer_201 "X" 201 "{}" (inl (JObj []))
           eq_refl).
  discriminate.
Defined.

(** ** The log only grows *)

Definition grows {A} (m : M A) : Prop :=
  forall log, exists ext, fst (m log) = app log ext.

Lemma grows_ret {A} (a : A) : grows (ret a).
Proof. intros log. exists []. simpl. rewrite app_nil_r. reflexivity. Qed.

Lemma grows_emit (e : event) : grows (emit e).
Proof. intros log. exists [e]. reflexivity. Qed.

Lemma grows_lift {A} (r : result A) : grows (lift r).
Proof. intros log. exists []. simpl. rewrite app_nil_r. reflexivity. Qed.

Lemma grows_bind {A B} (m : M A) (k : A -> M B) :
  grows m -> (forall a, grows (k a)) -> grows (mbind m k).
Proof.
  intros Hm Hk log. unfold mbind.
  destruct (Hm log) as [ext1 H1].
  destruct (m log) as [log' [a | e]]; simpl in H1; subst log'.
  - destruct (Hk a (app log ext1)) as [ext2 H2].
    exists (app ext1 ext2). rewrite H2, app_assoc. reflexivity.
  - exists ext1. reflexivity.
Qed.

Create HintDb grows.
#[local] Hint Resolve grows_ret grows_emit grows_lift grows_bind : grows.

Ltac grows_tac :=
  repeat first [ apply grows_bind; intros
               | progress (auto with grows)
               | match goal with
                 | |- grows (match ?x with _ => _ end) => destruct x
                 | |- grows (if ?x then _ else _) => destruct x
                 end ].

Section Grows.
Variable http : request -> response.

Lemma fetch_relationships_grows (rels : list (string * json)) :
  grows (fetch_relationships http rels).
Proof.
  induction rels as [| rel rels IH]; simpl; [apply grows_ret |].
  apply grows_bind; [| intros; apply grows_bind; [exact IH | auto with grows]].
  unfold fetch_relationship, fetch_link. grows_tac.
Qed.

Lemma related_frames_grows (leis : list json) (acc : list frame) :
  grows (related_frames http leis acc).
Proof.
  revert acc. induction leis as [| lei leis IH]; intros acc; simpl;
    [apply grows_ret |].
  unfold fetch_lei, show_error. grows_tac.
Qed.

Lemma show_table_grows (t : list frame) : grows (show_table t).
Proof. unfold show_table. grows_tac. Qed.

Lemma show_company_grows (input_lei : string) (data : json) :
  grows (show_company http input_lei data).
Proof.
  unfold show_company, fetch_relationship_data.
  pose proof show_table_grows.
  grows_tac; auto using fetch_relationships_grows, related_frames_grows.
Qed.

End Grows.

(** ** The page *)

(** A log with no table and no request but the primary one. *)
Definition halted_after_primary (input_lei : string) (log : list event) : Prop :=
  Forall (fun e => match e with
                   | EvTable _ => False
                   | EvRequest rq => rq = gleif_request input_lei
                   | _ => True
                   end) log.

(** C7: when the primary fetch fails (transport error, or any status but
    200), the error is shown, no row is built and no relationship is
    requested. *)
Theorem primary_failure_halts (http : request -> response)
  (input_lei : string)
  (Hfail : (exists msg, http (gleif_request input_lei) = Transport msg) \/
           (exists status text body,
              http (gleif_request input_lei) = Response status text body
              /\ status <> 200%Z)) :
  halted_after_primary input_lei (fst (run_lookup http input_lei)) /\
  (exists msg, In (EvError msg) (fst (run_lookup http input_lei))) /\
  snd (run_lookup http input_lei) = Ok tt.
Proof.
  unfold run_lookup, lookup, fetch_lei, get_lei_information, mbind, emit, ret, lift.
  destruct Hfail as [[msg H] | [status [text [body [H Hs]]]]]; rewrite H.
  - simpl. unfold halted_after_primary.
    split; [repeat constructor |]. split; [eexists; simpl; eauto | reflexivity].
  - apply Z.eqb_neq in Hs. rewrite Hs. simpl. unfold halted_after_primary.
    split; [repeat constructor |]. split; [eexists; simpl; eauto | reflexivity].
Qed.

Definition unreachable (_ : request) : response :=
  Transport "Failed to resolve 'api.gleif.org'".

Lemma primary_failure_halts_witness :
  fst (run_lookup unreachable "529900W18LQJJN6SJ336") =
    [EvRequest (gleif_request "529900W18LQJJN6SJ336");
     EvError (JStr "An error occurred during the request.");
     EvWrite (JStr "Failed to resolve 'api.gleif.org'")] /\
  halted_after_primary "529900W18LQJJN6SJ336"
    (fst (run_lookup unreachable "529900W18LQJJN6SJ336")).
Proof.
  split; [reflexivity |].
  apply (primary_failure_halts unreachable "529900W18LQJJN6SJ336").
  left. exists "Failed to resolve 'api.gleif.org'". reflexivity.
Defined.

(** C10: a 200 response whose JSON object has a top-level ["error"] key
    is handled as a failed lookup (no row, no relationship request, its
    ["error"] shown); without that key the page goes on to the company
    table. *)
Theorem error_key_decides (http : request -> response) (input_lei : string)
  (text : string) (kvs : list (string * json))
  (H : http (gleif_request input_lei) = Response 200 text (inl (JObj kvs))) :
  (forall v, assoc "error" kvs = Some v ->
     halted_after_primary input_lei (fst (run_lookup http input_lei)) /\
     In (EvError v) (fst (run_lookup http input_lei))) /\
  (assoc "error" kvs = None ->
     nth_error (fst (run_lookup http input_lei)) 1 =
       Some (EvSubheader "Company Information")).
Proof.
  unfold run_lookup, lookup, fetch_lei, get_lei_information, mbind, emit, ret, lift.
  rewrite H. simpl. split.
  - intros v Hv. rewrite Hv. unfold show_error, mbind, lift, emit.
    simpl. rewrite Hv. simpl.
    destruct (assoc "details" kvs) as [d |]; simpl; unfold halted_after_primary;
      (split; [repeat constructor | simpl; tauto]).
  - intros Hn. rewrite Hn. simpl.
    destruct (show_company_grows http input_lei (JObj kvs)
                [EvRequest (gleif_request input_lei);
                 EvSubheader "Company Information"]) as [ext Hext].
    simpl in Hext.
    rewrite Hext. reflexivity.
Qed.

(** A registry answering 200 with a JSON object that has an ["error"]
    key. *)
Definition answer_error_body (_ : request) : response :=
  Response 200 "(body)"
    (inl (JObj [("error", JStr "Rate limit exceeded");
                ("details", JStr "Retry later")])).

Lemma error_key_decides_witness :
  halted_after_primary "529900W18LQJJN6SJ336"
    (fst (run_lookup answer_error_body "529900W18LQJJN6SJ336")) /\
  In (EvError (JStr "Rate limit exceeded"))
    (fst (run_lookup answer_error_body "529900W18LQJJN6SJ336")).
Proof.
  destruct (error_key_decides answer_error_body "529900W18LQJJN6SJ336" "(body)"
              [("error", JStr "Rate limit exceeded");
               ("details", JStr "Retry later")] eq_refl) as [Herr _].
  apply Herr. reflexivity.
Defined.

(** ** [extract_related_leis] *)

Lemma mapM_ok {A B} (f : A -> result B) (l : list A) (ys : list B) :
  mapM f l = Ok ys -> Forall2 (fun x y => f x = Ok y) l ys.
Proof.
  revert ys. induction l as [| x l IH]; intros ys H; simpl in H.
  - injection H as <-. constructor.
  - destruct (f x) as [y |] eqn:Hx; [| discriminate].
    simpl in H. destruct (mapM f l) as [ys' |] eqn:Hl; [| discriminate].
    simpl in H. injection H as <-. constructor; auto.
Qed.

(** Every item of a [concat] of results mapped over [l] is an item of
    the result for some element of [l]. *)
Lemma mapM_concat_in {A} (f : A -> result (list json)) (l : list A)
  (ys : list (list json)) (v : json) :
  mapM f l = Ok ys -> In v (concat ys) ->
  exists x ls, In x l /\ f x = Ok ls /\ In v ls.
Proof.
  intros H Hv. apply mapM_ok in H.
  apply in_concat in Hv. destruct Hv as [ls [Hls Hv]].
  induction H as [| x y l ys Hxy _ IH].
  - contradiction.
  - destruct Hls as [<- | Hls].
    + exists x, y. simpl. auto.
    + destruct (IH Hls) as (x' & ls' & ? & ? & ?). exists x', ls'. simpl. auto.
Qed.

(** What one entry contributes passes the filter [lei and lei != input_lei]. *)
Lemma entry_lei_filtered (input_lei : string) (entry : json)
  (ls : list json) (v : json) :
  entry_lei input_lei entry = Ok ls -> In v ls ->
  truthy v = true /\ differs_from v input_lei = true.
Proof.
  unfold entry_lei. intros H Hv.
  destruct (dict_get entry "attributes" (JObj [])) as [a |]; [| discriminate].
  simpl in H. destruct (dict_get a "lei" JNull) as [lei |]; [| discriminate].
  simpl in H. injection H as <-.
  destruct (truthy lei) eqn:Ht, (differs_from lei input_lei) eqn:Hd;
    simpl in Hv; try contradiction.
  destruct Hv as [<- | []]. auto.
Qed.

Lemma collected_filtered (cells : list cell) (input_lei : string)
  (raw : list json) (v : json) :
  collect_related_leis cells input_lei = Ok raw -> In v raw ->
  truthy v = true /\ differs_from v input_lei = true.
Proof.
  unfold collect_related_leis. intros H Hv.
  destruct (mapM (relationship_leis input_lei) cells) as [ls |] eqn:Hm;
    [| discriminate].
  simpl in H. injection H as <-.
  destruct (mapM_concat_in _ _ _ _ Hm Hv) as (c & l & _ & Hc & Hvl).
  unfold relationship_leis in Hc.
  destruct (cell_get c "data" JNull) as [df |]; [| discriminate].
  simpl in Hc. destruct df; try (injection Hc as <-; contradiction).
  - destruct (mapM (entry_lei input_lei) l0) as [ls' |] eqn:He;
      [| discriminate].
    simpl in Hc. injection Hc as <-.
    destruct (mapM_concat_in _ _ _ _ He Hvl) as (e & l' & _ & He' & Hv').
    exact (entry_lei_filtered _ _ _ _ He' Hv').
  - exact (entry_lei_filtered _ _ _ _ Hc Hvl).
Qed.

Lemma py_eq_refl (v : json) : hashable v = true -> py_eq v v = true.
Proof.
  destruct v; simpl; intros H; try discriminate.
  - reflexivity.
  - apply Bool.eqb_reflx.
  - apply Z.eqb_refl.
  - apply String.eqb_refl.
Qed.

Lemma py_eq_str (s : string) (v : json) : py_eq (JStr s) v = true <-> v = JStr s.
Proof.
  destruct v; simpl; split; intros H; try discriminate.
  - apply String.eqb_eq in H. subst. reflexivity.
  - injection H as ->. apply String.eqb_refl.
Qed.

(** The set built from [xs]: items drawn from [acc] or [xs], pairwise
    distinct, keeping [acc], and holding a member equal to every item. *)
Lemma set_insert_all_spec (acc xs out : list json) :
  set_insert_all acc xs = Ok out -> NoDup acc ->
  NoDup out /\ (forall v, In v out -> In v acc \/ In v xs) /\
  (forall v, In v acc -> In v out) /\
  (forall x, In x xs -> exists y, In y out /\ py_eq x y = true).
Proof.
  revert acc. induction xs as [| x xs IH]; intros acc H Hnd; simpl in H.
  - injection H as <-. repeat split; auto. intros x [].
  - destruct (hashable x) eqn:Hh; [| discriminate].
    destruct (existsb (py_eq x) acc) eqn:Hex.
    + destruct (IH acc H Hnd) as (Hnd' & Hsub & Hkeep & Hall).
      repeat split; auto.
      * intros v Hv. destruct (Hsub v Hv); simpl; auto.
      * intros y [<- | Hy]; auto.
        apply existsb_exists in Hex. destruct Hex as [z [Hz Hxz]].
        exists z. auto.
    + assert (Hnd2 : NoDup (app acc [x])).
      { apply NoDup_app; [exact Hnd | constructor; [intros [] | constructor] |].
        intros y Hy [<- | []].
        assert (existsb (py_eq x) acc = true) as Hc.
        { apply existsb_exists. exists x. split; auto. apply py_eq_refl; exact Hh. }
        rewrite Hc in Hex. discriminate. }
      destruct (IH _ H Hnd2) as (Hnd' & Hsub & Hkeep & Hall).
      repeat split; auto.
      * intros v Hv. destruct (Hsub v Hv) as [Ha | Ha]; simpl; auto.
        apply in_app_or in Ha. destruct Ha as [Ha | [<- | []]]; auto.
      * intros v Hv. apply Hkeep. apply in_or_app. auto.
      * intros y [<- | Hy]; auto.
        exists x. split; [apply Hkeep, in_or_app; simpl; auto |].
        apply py_eq_refl; exact Hh.
Qed.

Lemma filter_nodup_single (f : json -> bool) (x : json) (l : list json) :
  NoDup l -> In x l -> (forall y, f y = true <-> y = x) ->
  List.length (filter f l) = 1%nat.
Proof.
  intros Hnd Hin Hf. induction Hnd as [| y l Hy Hnd IH]; [contradiction |].
  simpl. destruct (f y) eqn:Hfy.
  - apply Hf in Hfy. subst y. simpl. f_equal.
    assert (filter f l = []) as ->; [| reflexivity].
    clear IH Hnd Hin. induction l as [| z l IHl]; [reflexivity |].
    simpl. destruct (f z) eqn:Hfz.
    + apply Hf in Hfz. subst z. exfalso. apply Hy. left. reflexivity.
    + apply IHl. intros Hl. apply Hy. right. exact Hl.
  - destruct Hin as [-> | Hin].
    + assert (f x = true) by (apply Hf; reflexivity). congruence.
    + auto.
Qed.

(** Relationship payloads as the registry serves them: a list of
    records, and a single record. *)
Definition lei_entry (lei : string) : json :=
  JObj [("type", JStr "lei-records");
        ("attributes", JObj [("lei", JStr lei)])].

Definition children_payload : json :=
  JObj [("data", JArr [lei_entry "529900W18LQJJN6SJ336";
                       lei_entry "5299000J2N45DDNE4Y28";
                       JObj [("attributes", JObj [])]])].

Definition parent_payload : json :=
  JObj [("data", lei_entry "5299000J2N45DDNE4Y28")].

Definition sample_cells : list cell :=
  [CJson children_payload; CJson parent_payload].

(** C2: whatever the shape of the ["data"] fields, the LEIs returned by
    [extract_related_leis] are never the input LEI, never empty and never
    missing ([None]). *)
Theorem extract_excludes_input (relationship_data : list cell)
  (input_lei : string) (out : list json)
  (H : extract_related_leis relationship_data input_lei = Ok out) :
  forall v, In v out -> v <> JStr input_lei /\ v <> JStr "" /\ v <> JNull.
Proof.
  intros v Hv. unfold extract_related_leis in H.
  destruct (collect_related_leis relationship_data input_lei) as [raw |] eqn:Hc;
    [| discriminate].
  simpl in H. unfold list_of_set in H.
  destruct (set_insert_all_spec [] raw out H (NoDup_nil _)) as (_ & Hsub & _).
  destruct (Hsub v Hv) as [[] | Hraw].
  destruct (collected_filtered _ _ _ _ Hc Hraw) as [Ht Hd].
  repeat split; intros ->; simpl in *;
    rewrite ?String.eqb_refl in *; discriminate.
Qed.

Lemma extract_excludes_input_witness :
  extract_related_leis sample_cells "529900W18LQJJN6SJ336"
    = Ok [JStr "5299000J2N45DDNE4Y28"] /\
  JStr "5299000J2N45DDNE4Y28" <> JStr "529900W18LQJJN6SJ336".
Proof.
  split; [vm_compute; reflexivity |].
  apply (extract_excludes_input sample_cells "529900W18LQJJN6SJ336"
           [JStr "5299000J2N45DDNE4Y28"]); [vm_compute; reflexivity |].
  left. reflexivity.
Defined.

(** C3: the LEIs returned by [extract_related_leis] are distinct, and
    an LEI collected from the payloads, once or several times, is
    returned exactly once. *)
Theorem extract_deduplicates (relationship_data : list cell)
  (input_lei : string) (out : list json)
  (H : extract_related_leis relationship_data input_lei = Ok out) :
  NoDup out /\
  forall related_leis s,
    collect_related_leis relationship_data input_lei = Ok related_leis ->
    In (JStr s) related_leis ->
    List.length (filter (py_eq (JStr s)) out) = 1%nat.
Proof.
  unfold extract_related_leis in H.
  destruct (collect_related_leis relationship_data input_lei) as [raw |] eqn:Hc;
    [| discriminate].
  simpl in H. unfold list_of_set in H.
  destruct (set_insert_all_spec [] raw out H (NoDup_nil _))
    as (Hnd & _ & _ & Hall).
  split; [exact Hnd |].
  intros related_leis s Hc' Hin. injection Hc' as <-.
  destruct (Hall _ Hin) as [y [Hy Heq]].
  apply py_eq_str in Heq. subst y.
  apply filter_nodup_single with (x := JStr s); auto.
  intros y. apply py_eq_str.
Qed.

Lemma extract_deduplicates_witness :
  collect_related_leis sample_cells "529900W18LQJJN6SJ336"
    = Ok [JStr "5299000J2N45DDNE4Y28"; JStr "5299000J2N45DDNE4Y28"] /\
  List.length (filter (py_eq (JStr "5299000J2N45DDNE4Y28"))
     [JStr "5299000J2N45DDNE4Y28"]) = 1%nat.
Proof.
  split; [vm_compute; reflexivity |].
  destruct (extract_deduplicates sample_cells "529900W18LQJJN6SJ336"
              [JStr "5299000J2N45DDNE4Y28"]) as [_ Honce];
    [vm_compute; reflexivity |].
  apply (Honce [JStr "5299000J2N45DDNE4Y28"; JStr "5299000J2N45DDNE4Y28"]
                "5299000J2N45DDNE4Y28"); [vm_compute; reflexivity |].
  left. reflexivity.
Defined.

Lemma mapM_err {A B} (f : A -> result B) (l : list A) (e : exn) :
  mapM f l = Err e -> exists x, In x l /\ f x = Err e.
Proof.
  induction l as [| x l IH]; simpl; intros H; [discriminate |].
  destruct (f x) as [y | e'] eqn:Hx; simpl in H.
  - destruct (mapM f l) as [ys | e''] eqn:Hl; simpl in H; [discriminate |].
    injection H as ->. destruct (IH eq_refl) as [x' [Hin Hx']].
    exists x'. auto.
  - injection H as ->. exists x. auto.
Qed.

Lemma dict_get_err (d : json) (k : string) (default : json) (e : exn) :
  dict_get d k default = Err e -> e = AttributeError.
Proof.
  destruct d; simpl; intros H; try (injection H as <-; reflexivity).
  destruct (assoc k kvs); discriminate.
Qed.

Lemma set_insert_all_err (acc xs : list json) (e : exn) :
  set_insert_all acc xs = Err e -> e = TypeError.
Proof.
  revert acc. induction xs as [| x xs IH]; simpl; intros acc H;
    [discriminate |].
  destruct (hashable x); [exact (IH _ H) | injection H as <-; reflexivity].
Qed.

(** Walking the payloads fails only with [AttributeError]: the one
    failing operation there is [.get] on a value that is not a dict. *)
Lemma collect_err_attr (relationship_data : list cell) (input_lei : string)
  (e : exn) :
  collect_related_leis relationship_data input_lei = Err e ->
  e = AttributeError.
Proof.
  unfold collect_related_leis. intros H.
  destruct (mapM (relationship_leis input_lei) relationship_data)
    as [ls | e'] eqn:Hm; simpl in H; [discriminate |].
  injection H as ->.
  destruct (mapM_err _ _ _ Hm) as [c [_ Hc]].
  unfold relationship_leis in Hc.
  destruct c as [v |]; simpl in Hc; [| injection Hc as <-; reflexivity].
  destruct (dict_get v "data" JNull) as [df | e1] eqn:Hg; simpl in Hc;
    [| injection Hc as <-; exact (dict_get_err _ _ _ _ Hg)].
  assert (Hentry : forall x e0, entry_lei input_lei x = Err e0 ->
                                e0 = AttributeError).
  { intros x e0 Hx. unfold entry_lei in Hx.
    destruct (dict_get x "attributes" (JObj [])) as [a | e2] eqn:Ha;
      simpl in Hx; [| injection Hx as <-; exact (dict_get_err _ _ _ _ Ha)].
    destruct (dict_get a "lei" JNull) as [l | e3] eqn:Hl; simpl in Hx;
      [discriminate | injection Hx as <-; exact (dict_get_err _ _ _ _ Hl)]. }
  destruct df; try discriminate.
  - destruct (mapM (entry_lei input_lei) l) as [ls' | e4] eqn:He;
      simpl in Hc; [discriminate |].
    injection Hc as <-. destruct (mapM_err _ _ _ He) as [x [_ Hx]].
    exact (Hentry x _ Hx).
  - exact (Hentry _ _ Hc).
Qed.

(** Building the set fails only on an unhashable item. *)
Lemma set_insert_all_unhashable (acc xs : list json) (e : exn) :
  set_insert_all acc xs = Err e ->
  e = TypeError /\ exists v, In v xs /\ hashable v = false.
Proof.
  revert acc. induction xs as [| x xs IH]; simpl; intros acc H;
    [discriminate |].
  destruct (hashable x) eqn:Hx.
  - destruct (IH _ H) as [-> [v [Hv Hh]]]. split; [reflexivity |].
    exists v. auto.
  - injection H as <-. split; [reflexivity |]. exists x. auto.
Qed.

(** ** Relationships with a failing link *)

Lemma mapM_err_on_nan (input_lei : string) (cells : list cell) :
  In CNaN cells ->
  exists e, mapM (relationship_leis input_lei) cells = Err e.
Proof.
  induction cells as [| c cells IH]; intros Hin; [contradiction |].
  destruct Hin as [-> | Hin].
  - exists AttributeError. reflexivity.
  - simpl. destruct (relationship_leis input_lei c) as [y | e]; simpl.
    + destruct (IH Hin) as [e He]. rewrite He. exists e. reflexivity.
    + exists e. reflexivity.
Qed.

(** Once one relationship failed and another succeeded, the ["Data"]
    column holds a [NaN] and [extract_related_leis] never returns. *)
Lemma partial_failure_breaks_extraction (rs : list rel_result)
  (input_lei : string) :
  existsb has_data rs = true ->
  existsb (fun r => negb (has_data r)) rs = true ->
  exists e, (let* relationship_data := data_column rs in
             extract_related_leis relationship_data input_lei) = Err e.
Proof.
  intros Hd Hf. unfold data_column. rewrite Hd. simpl.
  apply existsb_exists in Hf. destruct Hf as [r [Hr Hnd]].
  assert (In CNaN (map data_cell rs)) as Hnan.
  { apply in_map_iff. exists r. split; [| exact Hr].
    destruct r; [discriminate | reflexivity]. }
  destruct (mapM_err_on_nan input_lei _ Hnan) as [e He].
  exists e. unfold extract_related_leis, collect_related_leis.
  rewrite He. reflexivity.
Qed.

(** More exactly, the exception is [AttributeError]. *)
Lemma partial_failure_attribute_error (rs : list rel_result)
  (input_lei : string) :
  existsb has_data rs = true ->
  existsb (fun r => negb (has_data r)) rs = true ->
  (let* relationship_data := data_column rs in
   extract_related_leis relationship_data input_lei) = Err AttributeError.
Proof.
  intros Hd Hf. unfold data_column. rewrite Hd. simpl.
  unfold extract_related_leis.
  destruct (collect_related_leis (map data_cell rs) input_lei)
    as [raw | e] eqn:Hc; simpl.
  - exfalso. apply existsb_exists in Hf. destruct Hf as [r [Hr Hnd]].
    destruct r as [n l d | n l err]; [discriminate |].
    destruct (mapM_err_on_nan input_lei (map data_cell rs)) as [e0 He0].
    { apply in_map_iff. exists (RelError n l err). auto. }
    unfold collect_related_leis in Hc. rewrite He0 in Hc. discriminate.
  - rewrite (collect_err_attr _ _ _ Hc). reflexivity.
Qed.

Definition sample_lei : string := "529900W18LQJJN6SJ336".
Definition child_lei : string := "5299000J2N45DDNE4Y28".

Definition parent_link : string := gleif_url (sample_lei ++ "/direct-parent").
Definition children_link : string :=
  gleif_url (sample_lei ++ "/direct-children").

(** The relationship links of the sample record: its direct parent is
    not reported (the registry answers 404), its children are. *)
Definition sample_relationships : json :=
  JObj [("direct-parent", JObj [("links", JObj [("related", JStr parent_link)])]);
        ("direct-children",
           JObj [("links", JObj [("related", JStr children_link)])])].

Definition sample_document : json :=
  JObj [("data", JObj [("type", JStr "lei-records");
                       ("id", JStr sample_lei);
                       ("attributes", encode_attributes sample_record);
                       ("relationships", sample_relationships)])].

Definition sample_http (rq : request) : response :=
  let u := req_url rq in
  if String.eqb u (gleif_url sample_lei) then
    Response 200 "(record)" (inl sample_document)
  else if String.eqb u parent_link then
    Response 404 "Not Found" (inl (JObj [("errors", JArr [])]))
  else if String.eqb u children_link then
    Response 200 "(children)" (inl children_payload)
  else if String.eqb u (gleif_url child_lei) then
    Response 200 "(record)" (inl (encode sample_record))
  else Transport "Connection refused".

(** C1 (code defect): looking up the sample LEI, whose direct-parent link
    answers 404 while its direct-children link answers 200. The resolver
    records the error for the parent alone and keeps the children's
    payload, but the ["Data"] cell of the failed row is [NaN], so
    [extract_related_leis] raises [AttributeError] and the lookup stops:
    the child is never resolved and no related table is shown. *)
Theorem partial_failure_aborts_lookup :
  snd (fetch_relationship_data sample_http sample_document []) =
    Ok [RelError "direct-parent" (JStr parent_link) (RelHTTP 404);
        RelData "direct-children" (JStr children_link) children_payload] /\
  (let* relationship_data :=
     data_column [RelError "direct-parent" (JStr parent_link) (RelHTTP 404);
                  RelData "direct-children" (JStr children_link)
                    children_payload] in
   extract_related_leis relationship_data sample_lei) = Err AttributeError /\
  snd (run_lookup sample_http sample_lei) = Err AttributeError /\
  ~ In (EvRequest (gleif_request child_lei))
      (fst (run_lookup sample_http sample_lei)).
Proof.
  split; [vm_compute; reflexivity |].
  split; [vm_compute; reflexivity |].
  split; [vm_compute; reflexivity |].
  vm_compute. intros H. repeat (destruct H as [H | H]; [discriminate H |]).
  exact H.
Qed.

(** * Further properties of the code *)

(** ** The fetcher's results *)

(** [get_lei_information] returns either the body of a 200 JSON response
    or a dict with exactly the keys ["error"] and ["details"], both
    strings: the shape the page's error branch reads. *)
Theorem fetch_result_shape (http : request -> response) (lei : string) :
  (exists text data,
     http (gleif_request lei) = Response 200 text (inl data) /\
     get_lei_information http lei = data) \/
  (exists err details,
     get_lei_information http lei =
       JObj [("error", JStr err); ("details", JStr details)]).
Proof.
  unfold get_lei_information.
  destruct (http (gleif_request lei)) as [msg | status text [data | msg]] eqn:H.
  - right. do 2 eexists. reflexivity.
  - destruct (Z.eqb_spec status 200) as [-> | Hs].
    + left. exists text, data. auto.
    + right. do 2 eexists. reflexivity.
  - destruct (Z.eqb status 200); right; do 2 eexists; reflexivity.
Qed.

(** ** The flattened row, column by column *)

(** The value at a path of keys. *)
Fixpoint json_path (p : list string) (v : json) : option json :=
  match p with
  | [] => Some v
  | k :: rest =>
      match v with
      | JObj kvs =>
          match assoc k kvs with
          | Some w => json_path rest w
          | None => None
          end
      | _ => None
      end
  end.

(** The columns [json_to_dataframe] copies from a single path. *)
Definition copied_columns : list (string * list string) :=
  let a := ["data"; "attributes"] in
  let e := app a ["entity"] in
  let g := app a ["registration"] in
  [("LEI", app a ["lei"]);
   ("Legal Name Language", app e ["legalName"; "language"]);
   ("Legal Address Language", app e ["legalAddress"; "language"]);
   ("Legal Address City", app e ["legalAddress"; "city"]);
   ("Legal Address Region", app e ["legalAddress"; "region"]);
   ("Legal Address Country", app e ["legalAddress"; "country"]);
   ("Legal Address Postal Code", app e ["legalAddress"; "postalCode"]);
   ("Headquarters Address Language", app e ["headquartersAddress"; "language"]);
   ("Headquarters Address City", app e ["headquartersAddress"; "city"]);
   ("Headquarters Address Region", app e ["headquartersAddress"; "region"]);
   ("Headquarters Address Country", app e ["headquartersAddress"; "country"]);
   ("Headquarters Address Postal Code",
      app e ["headquartersAddress"; "postalCode"]);
   ("Jurisdiction", app e ["jurisdiction"]);
   ("Category", app e ["category"]);
   ("Legal Form ID", app e ["legalForm"; "id"]);
   ("Registered At ID", app e ["registeredAt"; "id"]);
   ("Registered As", app e ["registeredAs"]);
   ("Entity Status", app e ["status"]);
   ("Creation Date", app e ["creationDate"]);
   ("Expiration Date", app e ["expiration"; "date"]);
   ("Expiration Reason", app e ["expiration"; "reason"]);
   ("Associated Entity LEI", app e ["associatedEntity"; "lei"]);
   ("Associated Entity Name", app e ["associatedEntity"; "name"]);
   ("MIC", app a ["mic"]);
   ("OCID", app a ["ocid"]);
   ("Conformity Flag", app a ["conformityFlag"]);
   ("Initial Registration Date", app g ["initialRegistrationDate"]);
   ("Last Update Date", app g ["lastUpdateDate"]);
   ("Next Renewal Date", app g ["nextRenewalDate"]);
   ("Registration Status", app g ["status"]);
   ("Managing LOU", app g ["managingLou"]);
   ("Corroboration Level", app g ["corroborationLevel"]);
   ("Validated At ID", app g ["validatedAt"; "id"]);
   ("Validated As", app g ["validatedAs"])].

(** Round trip: for every record of the schema, the row has 41 columns;
    its index is the legal name, which is not a column; and every copied
    column holds the value found at its path in the document. *)
Theorem flatten_round_trip (r : lei_record) :
  exists fr, json_to_dataframe (encode r) = Ok fr /\
    List.length (snd fr) = 41%nat /\
    Some (fst fr) =
      json_path ["data"; "attributes"; "entity"; "legalName"; "name"]
                (encode r) /\
    column fr "Legal Name" = None /\
    Forall (fun cp => column fr (fst cp) = json_path (snd cp) (encode r))
           copied_columns.
Proof.
  split_record r trs bic sp.
  destruct trs as [|[[? ?] ?] ?]; destruct bic as [[|? ?]|];
    destruct sp as [[|? ?]|];
    unfold_flatten; crunch; eexists; (split; [reflexivity |]);
    simpl; (split; [reflexivity |]); (split; [reflexivity |]);
    (split; [reflexivity |]); repeat constructor.
Qed.

(** ** The page, end to end *)

Ltac run_page :=
  unfold run_lookup, lookup, fetch_lei, get_lei_information, mbind, emit,
    ret, lift.

(** A 200 body with an ["error"] key but no ["details"] key: the error is
    shown, then [data['details']] raises [KeyError]. *)
Theorem error_without_details_raises (http : request -> response)
  (lei text : string) (kvs : list (string * json)) (v : json)
  (H : http (gleif_request lei) = Response 200 text (inl (JObj kvs)))
  (He : assoc "error" kvs = Some v) (Hd : assoc "details" kvs = None) :
  run_lookup http lei =
    ([EvRequest (gleif_request lei); EvError v],
     Err (KeyError (JStr "details"))).
Proof.
  run_page. rewrite H. simpl. rewrite He. simpl.
  unfold show_error, mbind, lift, emit. simpl. rewrite He, Hd. reflexivity.
Qed.

(** A registry whose 200 body carries an error without details. *)
Definition answer_bare_error (_ : request) : response :=
  Response 200 "(body)" (inl (JObj [("error", JStr "Unavailable")])).

Lemma error_without_details_raises_witness :
  run_lookup answer_bare_error "X" =
    ([EvRequest (gleif_request "X"); EvError (JStr "Unavailable")],
     Err (KeyError (JStr "details"))).
Proof.
  exact (error_without_details_raises answer_bare_error "X" "(body)"
           [("error", JStr "Unavailable")] (JStr "Unavailable")
           eq_refl eq_refl eq_refl).
Defined.

(** A valid record without a [relationships] map, whose legal name is
    not a list or a dict: the page shows its row, then the relationships
    heading and "No relationships found.", after a single request. *)
Theorem lookup_record_without_relationships (http : request -> response)
  (lei text : string) (r : lei_record)
  (H : http (gleif_request lei) = Response 200 text (inl (encode r)))
  (Hname : hashable (rec_legal_name r) = true) :
  exists fr, json_to_dataframe (encode r) = Ok fr /\
    run_lookup http lei =
      ([EvRequest (gleif_request lei);
        EvSubheader "Company Information";
        EvTable [fr];
        EvSubheader "Company Relationships";
        EvInfo "No relationships found."], Ok tt).
Proof.
  destruct (flatten_encoded r) as [fr [Hfr [Hidx _]]].
  exists fr. split; [exact Hfr |].
  run_page. rewrite H. simpl.
  unfold show_company, show_table, mbind, lift, emit, ret. rewrite Hfr.
  simpl. rewrite Hidx, Hname. reflexivity.
Qed.

Definition answer_sample (_ : request) : response :=
  Response 200 "(record)" (inl (encode sample_record)).

Lemma lookup_record_without_relationships_witness :
  exists fr, json_to_dataframe (encode sample_record) = Ok fr /\
    run_lookup answer_sample sample_lei =
      ([EvRequest (gleif_request sample_lei);
        EvSubheader "Company Information";
        EvTable [fr];
        EvSubheader "Company Relationships";
        EvInfo "No relationships found."], Ok tt).
Proof.
  exact (lookup_record_without_relationships answer_sample sample_lei
           "(record)" sample_record eq_refl eq_refl).
Defined.

(** A valid record whose legal name is a list or a dict: it flattens,
    but [Styler.format] raises [TypeError] on it, so the page stops
    after the first heading without showing the row or requesting the
    relationships. *)
Theorem lookup_unhashable_name_raises (http : request -> response)
  (lei text : string) (r : lei_record)
  (H : http (gleif_request lei) = Response 200 text (inl (encode r)))
  (Hname : hashable (rec_legal_name r) = false) :
  run_lookup http lei =
    ([EvRequest (gleif_request lei); EvSubheader "Company Information"],
     Err TypeError).
Proof.
  destruct (flatten_encoded r) as [fr [Hfr [Hidx _]]].
  run_page. rewrite H. simpl.
  unfold show_company, show_table, mbind, lift, emit, ret. rewrite Hfr.
  simpl. rewrite Hidx, Hname. reflexivity.
Qed.

(** The sample record with its legal name given as an object. *)
Definition record_with_object_name : lei_record :=
  mk_lei_record (JStr "529900W18LQJJN6SJ336")
    (JObj [("name", JStr "Sample AG")]) (JStr "de")
    [] sample_address sample_address (JStr "DE") (JStr "GENERAL")
    (JStr "8888") (JStr "RA000242") (JStr "HRB 1") (JStr "ACTIVE")
    (JStr "2014-01-01T00:00:00Z") JNull JNull JNull JNull
    (Some []) JNull JNull None (JStr "CONFORMING")
    (JStr "2014-01-01") (JStr "2024-01-01") (JStr "2025-01-01")
    (JStr "ISSUED") (JStr "5299000J2N45DDNE4Y28")
    (JStr "FULLY_CORROBORATED") (JStr "RA000242") (JStr "HRB 1").

Definition answer_object_name (_ : request) : response :=
  Response 200 "(record)" (inl (encode record_with_object_name)).

Lemma lookup_unhashable_name_raises_witness :
  run_lookup answer_object_name sample_lei =
    ([EvRequest (gleif_request sample_lei);
      EvSubheader "Company Information"], Err TypeError).
Proof.
  exact (lookup_unhashable_name_raises answer_object_name sample_lei
           "(record)" record_with_object_name eq_refl eq_refl).
Defined.

(** A 200 body without an ["error"] key that does not flatten: the page
    stops with the uncaught exception right after the first heading; no
    row and no relationship request. *)
Theorem primary_flatten_failure_raises (http : request -> response)
  (lei text : string) (data : json) (e : exn)
  (H : http (gleif_request lei) = Response 200 text (inl data))
  (Hn : contains "error" data = Ok false)
  (Hf : json_to_dataframe data = Err e) :
  run_lookup http lei =
    ([EvRequest (gleif_request lei); EvSubheader "Company Information"],
     Err e).
Proof.
  run_page. rewrite H. simpl. rewrite Hn. simpl.
  unfold show_company, mbind, lift, emit. rewrite Hf. reflexivity.
Qed.

Definition document_without_bic : json :=
  remove_path ["data"; "attributes"; "bic"] (encode sample_record).

Definition answer_without_bic (_ : request) : response :=
  Response 200 "(record)" (inl document_without_bic).

Lemma primary_flatten_failure_raises_witness :
  run_lookup answer_without_bic sample_lei =
    ([EvRequest (gleif_request sample_lei);
      EvSubheader "Company Information"], Err (KeyError (JStr "bic"))).
Proof.
  apply (primary_flatten_failure_raises answer_without_bic sample_lei
           "(record)" document_without_bic); [reflexivity | | ];
    vm_compute; reflexivity.
Defined.

(** ** The relationship loop *)

Definition rel_name (r : rel_result) : string :=
  match r with
  | RelData n _ _ | RelError n _ _ => n
  end.

(** Whether the loop body finds a truthy [links.related]. *)
Definition has_related_link (rel : string * json) : bool :=
  match dict_get (snd rel) "links" (JObj []) with
  | Ok links =>
      match dict_get links "related" JNull with
      | Ok l => truthy l
      | Err _ => false
      end
  | Err _ => false
  end.

Lemma fetch_link_name (http : request -> response) (name : string)
  (link : json) (log log' : list event) (r : rel_result) :
  fetch_link http name link log = (log', Ok r) -> rel_name r = name.
Proof.
  unfold fetch_link, mbind, emit, ret. intros H.
  destruct link; try (injection H as _ <-; reflexivity).
  simpl in H. injection H as _ <-.
  destruct (http (mk_request s None)) as [| st ? [|]]; try reflexivity;
    destruct ((400 <=? st)%Z && (st <? 600)%Z); reflexivity.
Qed.

(** [fetch_relationship_data]'s loop yields one row per relationship
    with a truthy related link, in the order of the map, whatever the
    outcome of its request; relationships without a link are skipped. *)
Theorem fetch_relationships_rows (http : request -> response)
  (rels : list (string * json)) (log log' : list event)
  (rs : list rel_result)
  (H : fetch_relationships http rels log = (log', Ok rs)) :
  map rel_name rs = map fst (filter has_related_link rels).
Proof.
  revert log log' rs H.
  induction rels as [| rel rels IH]; intros log log' rs H.
  - injection H as _ <-. reflexivity.
  - simpl in H. unfold mbind at 1 in H.
    unfold fetch_relationship in H. cbn [filter].
    unfold has_related_link at 1.
    unfold mbind at 1 2, lift in H.
    destruct (dict_get (snd rel) "links" (JObj [])) as [links |]; [| discriminate].
    destruct (dict_get links "related" JNull) as [l |]; [| discriminate].
    simpl. destruct (truthy l).
    + unfold mbind at 1 in H.
      destruct (fetch_link http (fst rel) l log) as [log1 [x |]] eqn:Hx;
        [| discriminate].
      unfold ret, mbind in H.
      destruct (fetch_relationships http rels log1) as [log2 [rs' |]] eqn:Hr;
        [| discriminate].
      injection H as _ <-. simpl.
      rewrite (fetch_link_name _ _ _ _ _ _ Hx). f_equal.
      exact (IH _ _ _ Hr).
    + unfold ret, mbind in H.
      destruct (fetch_relationships http rels log) as [log2 [rs' |]] eqn:Hr;
        [| discriminate].
      injection H as _ <-. exact (IH _ _ _ Hr).
Qed.

Lemma fetch_relationships_rows_witness :
  map rel_name [RelError "direct-parent" (JStr parent_link) (RelHTTP 404);
                RelData "direct-children" (JStr children_link) children_payload]
  = ["direct-parent"; "direct-children"].
Proof.
  rewrite (fetch_relationships_rows sample_http
    [("direct-parent", JObj [("links", JObj [("related", JStr parent_link)])]);
     ("direct-children", JObj [("links", JObj [("related", JStr children_link)])]);
     ("managing-lou", JObj [("links", JObj [])])] []
    [EvRequest (mk_request parent_link None);
     EvRequest (mk_request children_link None)]); [reflexivity |].
  vm_compute. reflexivity.
Defined.

(** Any failed relationship request ends the page with an exception
    right after the relationship requests: [KeyError('Data')] when all
    of them failed, the [NaN] cell's [AttributeError] otherwise. No
    related LEI is looked up and no related table is shown. *)
Theorem relationship_failure_aborts_display (http : request -> response)
  (input_lei : string) (data : json) (fr : frame) (log log' : list event)
  (rs : list rel_result)
  (Hf : json_to_dataframe data = Ok fr)
  (Hidx : hashable (fst fr) = true)
  (Hr : fetch_relationship_data http data
          (app (app log [EvTable [fr]]) [EvSubheader "Company Relationships"])
        = (log', Ok rs))
  (Hfail : existsb (fun r => negb (has_data r)) rs = true) :
  show_company http input_lei data log =
    (log', Err (if existsb has_data rs then AttributeError
                else KeyError (JStr "Data"))).
Proof.
  unfold show_company. unfold mbind at 1, lift. rewrite Hf.
  unfold mbind at 1. unfold show_table at 1. cbn [forallb]. rewrite Hidx.
  cbn [andb]. unfold emit at 1. unfold mbind at 1, emit at 1.
  unfold mbind at 1. rewrite Hr.
  destruct rs as [| r0 rs0]; [discriminate Hfail |].
  unfold mbind at 1, lift.
  destruct (existsb has_data (r0 :: rs0)) eqn:Hd.
  - pose proof (partial_failure_attribute_error (r0 :: rs0) input_lei Hd Hfail)
      as He.
    unfold data_column in He |- *. rewrite Hd in He |- *. simpl in He.
    unfold mbind. simpl map. rewrite He. reflexivity.
  - unfold data_column. rewrite Hd. reflexivity.
Qed.

Definition sample_frame : frame :=
  match json_to_dataframe sample_document with
  | Ok fr => fr
  | Err _ => (JNull, [])
  end.

Lemma relationship_failure_aborts_display_witness :
  show_company sample_http sample_lei sample_document [] =
    (fst (fetch_relationship_data sample_http sample_document
            [EvTable [sample_frame]; EvSubheader "Company Relationships"]),
     Err AttributeError).
Proof.
  apply (relationship_failure_aborts_display sample_http sample_lei
           sample_document sample_frame []
           _ [RelError "direct-parent" (JStr parent_link) (RelHTTP 404);
              RelData "direct-children" (JStr children_link) children_payload]);
    vm_compute; reflexivity.
Defined.

(** ** The loop over the related LEIs *)

(** A related LEI whose fetch fails shows its error and details, and the
    loop goes on with the next LEI and the frames gathered so far. *)
Theorem related_failure_continues (http : request -> response)
  (lei : json) (rest : list json) (acc : list frame) (log : list event)
  (Hfail : (exists msg, http (gleif_request (py_str lei)) = Transport msg) \/
           (exists status text body,
              http (gleif_request (py_str lei)) = Response status text body
              /\ status <> 200%Z)) :
  exists err details,
    related_frames http (lei :: rest) acc log =
    related_frames http rest acc
      (app log [EvRequest (gleif_request (py_str lei));
                EvError (JStr err); EvWrite (JStr details)]).
Proof.
  simpl related_frames. unfold fetch_lei, get_lei_information, show_error,
    mbind, emit, ret, lift.
  destruct Hfail as [[msg H] | [status [text [body [H Hs]]]]]; rewrite H.
  - do 2 eexists. simpl. rewrite <- !app_assoc. reflexivity.
  - apply Z.eqb_neq in Hs. rewrite Hs. do 2 eexists. simpl.
    rewrite <- !app_assoc. reflexivity.
Qed.

Lemma related_failure_continues_witness :
  exists err details,
    related_frames unreachable [JStr child_lei] [] [] =
    related_frames unreachable [] []
      [EvRequest (gleif_request child_lei);
       EvError (JStr err); EvWrite (JStr details)].
Proof.
  apply (related_failure_continues unreachable (JStr child_lei) [] [] []).
  left. eexists. reflexivity.
Defined.

(** A related LEI that resolves to a record of the schema adds its row
    after the rows gathered so far, with one request. *)
Theorem related_record_appended (http : request -> response)
  (lei : json) (rest : list json) (acc : list frame) (log : list event)
  (text : string) (r : lei_record)
  (H : http (gleif_request (py_str lei)) = Response 200 text (inl (encode r))) :
  exists fr, json_to_dataframe (encode r) = Ok fr /\
    related_frames http (lei :: rest) acc log =
    related_frames http rest (app acc [fr])
      (app log [EvRequest (gleif_request (py_str lei))]).
Proof.
  destruct (flatten_encoded r) as [fr [Hfr _]].
  exists fr. split; [exact Hfr |].
  simpl related_frames. unfold fetch_lei, get_lei_information, mbind, emit,
    ret, lift.
  rewrite H. simpl. rewrite Hfr. reflexivity.
Qed.

Lemma related_record_appended_witness :
  exists fr, json_to_dataframe (encode sample_record) = Ok fr /\
    related_frames answer_sample [JStr child_lei] [] [] =
    related_frames answer_sample [] [fr]
      [EvRequest (gleif_request child_lei)].
Proof.
  exact (related_record_appended answer_sample (JStr child_lei) [] [] []
           "(record)" sample_record eq_refl).
Defined.

(** ** The exceptions of [extract_related_leis] *)

(** [extract_related_leis] raises [AttributeError] only while walking
    the payloads (a [.get] on a payload, an entry or an ["attributes"]
    value that is not a dict), and [TypeError] only when building the
    set, once the walk is done, with some collected LEI that is a list or
    a dict. It raises nothing else. *)
Theorem extract_errors (relationship_data : list cell) (input_lei : string)
  (e : exn)
  (H : extract_related_leis relationship_data input_lei = Err e) :
  (collect_related_leis relationship_data input_lei = Err AttributeError
   /\ e = AttributeError) \/
  (e = TypeError /\
   exists raw v, collect_related_leis relationship_data input_lei = Ok raw
                 /\ In v raw /\ hashable v = false).
Proof.
  unfold extract_related_leis in H.
  destruct (collect_related_leis relationship_data input_lei)
    as [raw | e'] eqn:Hc; simpl in H.
  - right. destruct (set_insert_all_unhashable _ _ _ H) as [-> [v [Hv Hh]]].
    split; [reflexivity |]. exists raw, v. auto.
  - injection H as ->. left.
    rewrite (collect_err_attr _ _ _ Hc). auto.
Qed.

Lemma extract_errors_witness :
  extract_related_leis [CJson (JObj [("data", JArr [JStr "not a dict"])])]
    sample_lei = Err AttributeError /\
  ((collect_related_leis [CJson (JObj [("data", JArr [JStr "not a dict"])])]
      sample_lei = Err AttributeError /\ AttributeError = AttributeError) \/
   (AttributeError = TypeError /\
    exists raw v,
      collect_related_leis [CJson (JObj [("data", JArr [JStr "not a dict"])])]
        sample_lei = Ok raw /\ In v raw /\ hashable v = false)).
Proof.
  split; [reflexivity |].
  exact (extract_errors [CJson (JObj [("data", JArr [JStr "not a dict"])])]
           sample_lei AttributeError eq_refl).
Defined.
